(** * Greeter: the [greeter] package of [py/packages/greeter]

    The package is one module, [greeter/__init__.py]:

    - line 3 binds the name [example_hello] to the function [hello] of the
      collaborator package [example];
    - line 5 binds [__version__] to the string literal 0.1.0;
    - lines 8-10 define [greet], whose body returns the f-string made of the
      literal [Greeter says: ] followed by one replacement field holding the
      call [example_hello()].

    The embedding below follows the evaluation order of that f-string: call
    the collaborator, format the value it returned with an empty format
    specification, join the literal and the formatted text.  Code that does
    not belong to the package (the body of [hello], the [__format__] of the
    object it returned) is reached through one constructor of the program type
    and gets its meaning from handlers that are variables of a section. *)

From Stdlib Require Import NArith String List.
From stdpp Require Import gmap strings.

Local Open Scope string_scope.

(** ** Values, exceptions, outcomes *)

(** The Python values a caller of [greet] can meet: [None], an exact [str],
    a reference [VStrSub cls addr s] to an instance of a subclass of [str]
    whose characters are [s], and a reference [VObj cls addr] to any other
    object (an [int], a [float], an instance of a user class, ...).  In both
    references [addr] is where the object is stored and [cls] is the name of
    its type as the interpreter spells it in its messages.  How such an
    object formats itself is code outside the package. *)
Inductive PyVal : Type :=
| VNone
| VStr (s : string)
| VObj (cls : string) (addr : N)
| VStrSub (cls : string) (addr : N) (s : string).

(** An exception object: its class and its message. *)
Record PyExc : Type := mkExc { exc_class : string; exc_msg : string }.

(** How a call ends: with a value or with a raised exception. *)
Inductive Outcome (A : Type) : Type :=
| Returned (a : A)
| Raised (e : PyExc).

Arguments Returned {A} a.
Arguments Raised {A} e.

Definition is_str (v : PyVal) : bool :=
  match v with VStr _ => true | _ => false end.

(** The name of the type of [v] as the interpreter spells it in its
    messages. *)
Definition type_name (v : PyVal) : string :=
  match v with
  | VNone => "NoneType"
  | VStr _ => "str"
  | VObj cls _ => cls
  | VStrSub cls _ _ => cls
  end.

(** The characters of [v] when [v] is an instance of [str], exact or of a
    subclass: what joining [v] to other strings reads. *)
Definition str_contents (v : PyVal) : option string :=
  match v with
  | VStr s => Some s
  | VStrSub _ _ s => Some s
  | _ => None
  end.

(** The object whose formatting code a replacement field runs: none for
    [None] and for an exact [str]. *)
Definition formatter (v : PyVal) : option (string * N) :=
  match v with
  | VObj cls addr => Some (cls, addr)
  | VStrSub cls addr _ => Some (cls, addr)
  | _ => None
  end.

(** ** Programs

    A program either returns, raises, or calls external code and continues
    with the value that code returned.  When the external code raises, the
    continuation is dropped: the module has no [try] statement. *)

(** [CallFormat cls addr] is the formatting of the object at [addr] by its
    type: its [__format__], called with an empty format specification. *)
Inductive Callee : Type :=
| CallHello
| CallFormat (cls : string) (addr : N).

Inductive Prog (A : Type) : Type :=
| Ret (a : A)
| Throw (e : PyExc)
| Call (c : Callee) (k : PyVal -> Prog A).

Arguments Ret {A} a.
Arguments Throw {A} e.
Arguments Call {A} c k.

Fixpoint bind {A B : Type} (p : Prog A) (f : A -> Prog B) : Prog B :=
  match p with
  | Ret a => f a
  | Throw e => Throw e
  | Call c k => Call c (fun v => bind (k v) f)
  end.

Definition call (c : Callee) : Prog PyVal := Call c Ret.

Declare Scope prog_scope.
Delimit Scope prog_scope with prog.
Notation "x <- p ;; q" := (bind p (fun x => q))
  (at level 100, p at next level, right associativity) : prog_scope.

Local Open Scope prog_scope.

(** ** The module *)

(** Line 5. *)
Definition __version__ : string := "0.1.0".

(** The [TypeError] of the interpreter when a [__format__] answers with
    something that is not an instance of [str]. *)
Definition format_type_error (r : PyVal) : PyExc :=
  mkExc "TypeError" ("__format__ must return a str, not " ++ type_name r).

(** A replacement field without conversion and without format specification:
    [format(v, '')].  An exact [str] is taken as it is; [None] answers with
    its [str()]; any other object, an instance of a subclass of [str]
    included, answers through the [__format__] of its type.  The answer must
    be an instance of [str], exact or not, and its characters are what gets
    joined to the literal. *)
Definition format_value (v : PyVal) : Prog string :=
  match v with
  | VStr s => Ret s
  | VNone => Ret "None"
  | VObj cls addr | VStrSub cls addr _ =>
      r <- call (CallFormat cls addr) ;;
      match str_contents r with
      | Some s => Ret s
      | None => Throw (format_type_error r)
      end
  end.

(** Lines 8-10. *)
Definition greet : Prog string :=
  r <- call CallHello ;;
  s <- format_value r ;;
  Ret ("Greeter says: " ++ s).

(** ** Running a program *)

Record Run (World A : Type) : Type := mkRun {
  outcome : Outcome A;
  final : World;
  trace : list Callee
}.

Arguments mkRun {World A} outcome final trace.
Arguments outcome {World A} r.
Arguments final {World A} r.
Arguments trace {World A} r.

(** ** Reading the module's namespace *)

(** Line 5 seen as a statement: it binds the name in the module's
    dictionary. *)
Definition module_exec (ns : gmap string PyVal) : gmap string PyVal :=
  <["__version__" := VStr __version__]> ns.

(** [greeter.<name>]: the binding is returned and the dictionary is left as
    it was. *)
Definition load_attr (name : string) (ns : gmap string PyVal)
  : Outcome PyVal * gmap string PyVal :=
  match ns !! name with
  | Some v => (Returned v, ns)
  | None =>
      (Raised (mkExc "AttributeError"
                 ("module 'greeter' has no attribute '" ++ name ++ "'")), ns)
  end.

(** [n] reads of [greeter.__version__], one after the other. *)
Fixpoint read_version (n : nat) (ns : gmap string PyVal)
  : list (Outcome PyVal) * gmap string PyVal :=
  match n with
  | O => (nil, ns)
  | S n' =>
      let '(o, ns1) := load_attr "__version__" ns in
      let '(os, ns2) := read_version n' ns1 in
      (o :: os, ns2)
  end.

(** ** Executing the module

    Lines 1-10 as the interpreter executes them when the package is imported:
    the docstring is bound to [__doc__], line 3 imports [hello] from
    [example] and binds it to [example_hello], line 5 binds [__version__],
    line 8 binds [greet] to the function object it creates.  The import is
    code outside the package; when it raises, the statements after it are not
    executed. *)

(** Line 1. *)
Definition module_doc : string := "Greeter package that depends on example.".

Definition module_body {World : Type}
  (import_hello : World -> Outcome PyVal * World) (greet_fn : PyVal)
  (ns : gmap string PyVal) (w : World)
  : Outcome unit * gmap string PyVal * World :=
  let ns1 := <["__doc__" := VStr module_doc]> ns in
  match import_hello w with
  | (Raised e, w1) => (Raised e, ns1, w1)
  | (Returned f, w1) =>
      (Returned tt,
       <["greet" := greet_fn]> (module_exec (<["example_hello" := f]> ns1)),
       w1)
  end.

(** ** Sample collaborators, used to run the module on concrete inputs

    Their state is the number of calls served so far. *)

Module Samples.

Definition hello_world (n : nat) : Outcome PyVal * nat :=
  (Returned (VStr "world"), S n).

Definition hello_empty (n : nat) : Outcome PyVal * nat :=
  (Returned (VStr ""), S n).

Definition boom : PyExc := mkExc "RuntimeError" "boom".

Definition hello_raises (n : nat) : Outcome PyVal * nat :=
  (Raised boom, S n).

(** A [hello] whose body has no [return] statement. *)
Definition hello_none (n : nat) : Outcome PyVal * nat :=
  (Returned VNone, S n).

(** A collaborator on a state of another type. *)
Definition hello_world_log (l : list string) : Outcome PyVal * list string :=
  (Returned (VStr "world"), "hello" :: l).

(** A [hello] that returns the integer stored at address 1. *)
Definition hello_int (n : nat) : Outcome PyVal * nat :=
  (Returned (VObj "int" 1), S n).

(** The package [example] is not installed. *)
Definition import_missing (n : nat) : Outcome PyVal * nat :=
  (Raised (mkExc "ModuleNotFoundError" "No module named 'example'"), n).

(** The package [example] is installed; its [hello] is the function object at
    address 7. *)
Definition import_ok (n : nat) : Outcome PyVal * nat :=
  (Returned (VObj "function" 7), S n).

(** A [hello] that returns the instance of a user class stored at address
    3. *)
Definition hello_obj (n : nat) : Outcome PyVal * nat :=
  (Returned (VObj "Greeting" 3), S n).


(** A [__format__] that answers with an instance of a subclass of [str]. *)
Definition format_sub (cls : string) (addr : N) (n : nat)
  : Outcome PyVal * nat :=
  (Returned (VStrSub "MyStr" 4 "sub"), n).

(** A [__format__] that answers [None] for every object. *)
Definition format_none (cls : string) (addr : N) (n : nat)
  : Outcome PyVal * nat :=
  (Returned VNone, n).

(** A [__format__] that refuses every object; the runs that use it format
    none. *)
Definition no_format {W : Type} (cls : string) (addr : N) (w : W)
  : Outcome PyVal * W :=
  (Raised (mkExc "TypeError" "unsupported format string"), w).

(** A heap whose address 1 holds the [int] 42; a [__format__] that answers
    with a number instead of a string at address 2. *)
Definition int_format (cls : string) (addr : N) (n : nat)
  : Outcome PyVal * nat :=
  match addr with
  | 1%N => (Returned (VStr "42"), n)
  | 2%N => (Returned (VObj "int" 1), n)
  | _ => (Raised (mkExc "TypeError" "unsupported format string"), n)
  end.

End Samples.

(** ** Running a program *)

(** How many times [hello] was entered. *)
Definition hello_calls (t : list Callee) : nat :=
  List.length
    (List.filter (fun c => match c with CallHello => true | _ => false end) t).

Section Greeter.

(** Everything a callee can read or write: heap, streams, module tables. *)
Context {World : Type}.

(** The function bound by line 3. *)
Variable example_hello : World -> Outcome PyVal * World.

(** [type(obj).__format__(obj, '')] for the object at [addr]. *)
Variable obj_format : string -> N -> World -> Outcome PyVal * World.

Definition handle (c : Callee) : World -> Outcome PyVal * World :=
  match c with
  | CallHello => example_hello
  | CallFormat cls addr => obj_format cls addr
  end.

Fixpoint exec {A : Type} (p : Prog A) (w : World) : Run World A :=
  match p with
  | Ret a => mkRun (Returned a) w nil
  | Throw e => mkRun (Raised e) w nil
  | Call c k =>
      match handle c w with
      | (Returned v, w1) =>
          let r := exec (k v) w1 in
          mkRun (outcome r) (final r) (c :: trace r)
      | (Raised e, w1) => mkRun (Raised e) w1 (c :: nil)
      end
  end.

(** What the caller observes: the outcome and the state left behind. *)
Definition run {A : Type} (p : Prog A) (w : World) : Outcome A * World :=
  (outcome (exec p w), final (exec p w)).

(** Does a call end by returning an object that is neither a string nor
    [None]? *)
Definition returns_object (o : Outcome PyVal) : bool :=
  match o with
  | Returned (VObj _ _) => true
  | Returned (VStrSub _ _ _) => true
  | _ => false
  end.

(** The state after [n] calls of [hello], one after the other. *)
Fixpoint hello_times (n : nat) (w : World) : World :=
  match n with
  | O => w
  | S n' => hello_times n' (snd (example_hello w))
  end.

(** [n] calls of [greet], one after the other, by a caller that records how
    each call ended: the outcomes, the state after the last call, and the
    external calls made on the way. *)
Fixpoint greet_times (n : nat) (w : World)
  : list (Outcome string) * World * list Callee :=
  match n with
  | O => (nil, w, nil)
  | S n' =>
      let r := exec greet w in
      let '(os, w', t) := greet_times n' (final r) in
      (outcome r :: os, w', (trace r ++ t)%list)
  end.

(** *** The literal is a prefix of whatever it is joined with *)

Lemma prefix_append (p s : string) : String.prefix p (p ++ s) = true.
Proof.
  induction p as [|a p IH]; simpl.
  - destruct s; reflexivity.
  - destruct (Ascii.ascii_dec a a) as [_|Hne]; [exact IH | now destruct Hne].
Qed.

(** *** Equations of [exec greet], one per way the call to [hello] ends *)

Lemma exec_greet_raised (w w1 : World) (e : PyExc) :
  example_hello w = (Raised e, w1) ->
  exec greet w = mkRun (Raised e) w1 (CallHello :: nil).
Proof. intros Hh. cbn. rewrite Hh. reflexivity. Qed.

Lemma exec_greet_str (w w1 : World) (s : string) :
  example_hello w = (Returned (VStr s), w1) ->
  exec greet w = mkRun (Returned ("Greeter says: " ++ s)) w1 (CallHello :: nil).
Proof. intros Hh. cbn. rewrite Hh. reflexivity. Qed.

Lemma exec_greet_none (w w1 : World) :
  example_hello w = (Returned VNone, w1) ->
  exec greet w = mkRun (Returned "Greeter says: None") w1 (CallHello :: nil).
Proof. intros Hh. cbn. rewrite Hh. reflexivity. Qed.

Lemma exec_greet_obj (w w1 : World) (v : PyVal) (cls : string) (addr : N) :
  example_hello w = (Returned v, w1) ->
  formatter v = Some (cls, addr) ->
  exec greet w =
  match obj_format cls addr w1 with
  | (Returned r, w2) =>
      match str_contents r with
      | Some s =>
          mkRun (Returned ("Greeter says: " ++ s)) w2
            (CallHello :: CallFormat cls addr :: nil)
      | None =>
          mkRun (Raised (format_type_error r)) w2
            (CallHello :: CallFormat cls addr :: nil)
      end
  | (Raised e, w2) =>
      mkRun (Raised e) w2 (CallHello :: CallFormat cls addr :: nil)
  end.
Proof.
  intros Hh Hf. cbn. rewrite Hh.
  destruct v as [|s|c a|c a s]; try discriminate Hf;
    injection Hf as -> ->; cbn;
    (destruct (obj_format cls addr w1) as [[r|e] w2]; [|reflexivity]);
    destruct r; reflexivity.
Qed.

(** *** Properties of [greet] *)

(** C1. For every string [s] returned by [hello], [greet] returns exactly the
    literal [Greeter says: ] followed by [s], in the state [hello] left. *)
Theorem greet_returns_prefixed (w w1 : World) (s : string) :
  example_hello w = (Returned (VStr s), w1) ->
  run greet w = (Returned ("Greeter says: " ++ s), w1).
Proof.
  intros Hh. unfold run. rewrite (exec_greet_str w w1 s Hh). reflexivity.
Qed.

(** C2. If [hello] raises, [greet] raises the very same exception in the
    state [hello] left: it returns no string, [hello] is not entered a second
    time and nothing else is called. *)
Theorem greet_propagates_failure (w w1 : World) (e : PyExc) :
  example_hello w = (Raised e, w1) ->
  run greet w = (Raised e, w1)
  /\ (forall r : string, outcome (exec greet w) <> Returned r)
  /\ trace (exec greet w) = CallHello :: nil.
Proof.
  intros Hh. unfold run. rewrite (exec_greet_raised w w1 e Hh). cbn.
  repeat split. intros r Hr. discriminate Hr.
Qed.

(** C3, as amended. A result of [hello] that is not a string is not rejected:
    it is formatted and joined to the literal.  [None] gives the string
    [Greeter says: None]; any other object gives the literal followed by the
    characters of what its [__format__] returns, and [greet] raises only when
    that [__format__] raises (the same exception) or answers with something
    that is not an instance of [str] ([TypeError]). *)
Theorem greet_formats_non_string (w w1 : World) (v : PyVal) :
  example_hello w = (Returned v, w1) ->
  is_str v = false ->
  match v with
  | VNone => run greet w = (Returned "Greeter says: None", w1)
  | VStr _ => False
  | VObj cls addr | VStrSub cls addr _ =>
      match obj_format cls addr w1 with
      | (Returned r, w2) =>
          match str_contents r with
          | Some s => run greet w = (Returned ("Greeter says: " ++ s), w2)
          | None => run greet w = (Raised (format_type_error r), w2)
          end
      | (Raised e, w2) => run greet w = (Raised e, w2)
      end
  end.
Proof.
  intros Hh Hv. unfold run. destruct v as [|s|cls addr|cls addr s].
  - rewrite (exec_greet_none w w1 Hh). reflexivity.
  - discriminate Hv.
  - rewrite (exec_greet_obj w w1 _ cls addr Hh eq_refl).
    destruct (obj_format cls addr w1) as [[r|e] w2]; [|reflexivity].
    destruct (str_contents r); reflexivity.
  - rewrite (exec_greet_obj w w1 _ cls addr Hh eq_refl).
    destruct (obj_format cls addr w1) as [[r|e] w2]; [|reflexivity].
    destruct (str_contents r); reflexivity.
Qed.

(** C4. Whenever [greet] returns, the string it returns begins with the
    literal [Greeter says: ]. *)
Theorem greet_result_has_prefix (w : World) (r : string) :
  outcome (exec greet w) = Returned r ->
  String.prefix "Greeter says: " r = true.
Proof.
  destruct (example_hello w) as [[v|e] w1] eqn:Hh.
  - destruct (formatter v) as [[cls addr]|] eqn:Hf.
    + rewrite (exec_greet_obj w w1 v cls addr Hh Hf).
      destruct (obj_format cls addr w1) as [[x|e] w2]; [|discriminate].
      destruct (str_contents x); cbn; [|discriminate].
      intros [= <-]. apply prefix_append.
    + destruct v as [|s|c a|c a s]; try discriminate Hf.
      * rewrite (exec_greet_none w w1 Hh). cbn. intros [= <-]. reflexivity.
      * rewrite (exec_greet_str w w1 s Hh). cbn. intros [= <-].
        apply prefix_append.
  - rewrite (exec_greet_raised w w1 e Hh). discriminate.
Qed.

(** C5. If [hello] returns the empty string, [greet] returns the bare literal
    [Greeter says: ], trailing space included and nothing after it. *)
Theorem greet_of_empty (w w1 : World) :
  example_hello w = (Returned (VStr ""), w1) ->
  run greet w = (Returned "Greeter says: ", w1).
Proof.
  intros Hh. unfold run. rewrite (exec_greet_str w w1 "" Hh). reflexivity.
Qed.

(** C6. Two calls of [greet] in a row, the second one starting in the state
    the first one left, give the same result when [hello] returns the same
    string on both calls. *)
Theorem greet_twice_same (w w1 w2 : World) (s : string) :
  example_hello w = (Returned (VStr s), w1) ->
  example_hello w1 = (Returned (VStr s), w2) ->
  outcome (exec greet (final (exec greet w))) = outcome (exec greet w)
  /\ outcome (exec greet w) = Returned ("Greeter says: " ++ s).
Proof.
  intros H1 H2. rewrite (exec_greet_str w w1 s H1). cbn [final outcome].
  rewrite (exec_greet_str w1 w2 s H2). cbn [outcome]. split; reflexivity.
Qed.



(** *** Further properties of [greet] *)

Lemma substring_whole (s : string) : substring 0 (String.length s) s = s.
Proof. induction s as [|a s IH]; simpl; [reflexivity | now rewrite IH]. Qed.

Lemma hello_calls_app (t1 t2 : list Callee) :
  hello_calls (t1 ++ t2)%list = hello_calls t1 + hello_calls t2.
Proof. unfold hello_calls. rewrite List.filter_app. apply List.length_app. Qed.

Lemma hello_calls_greet (w : World) :
  hello_calls (trace (exec greet w)) = 1.
Proof.
  destruct (example_hello w) as [[v|e] w1] eqn:Hh.
  - destruct (formatter v) as [[cls addr]|] eqn:Hf.
    + rewrite (exec_greet_obj w w1 v cls addr Hh Hf).
      destruct (obj_format cls addr w1) as [[x|e] w2]; [|reflexivity].
      destruct (str_contents x); reflexivity.
    + destruct v as [|s|c a|c a s]; try discriminate Hf.
      * now rewrite (exec_greet_none w w1 Hh).
      * now rewrite (exec_greet_str w w1 s Hh).
  - now rewrite (exec_greet_raised w w1 e Hh).
Qed.

(** X1. The greeting keeps the whole of what [hello] returned: the result is
    14 characters longer than the string [s] of [hello], and the substring
    that starts after those 14 characters is [s] itself. *)
Theorem greet_result_recovers (w w1 : World) (s : string) :
  example_hello w = (Returned (VStr s), w1) ->
  exists r : string,
    outcome (exec greet w) = Returned r
    /\ String.length r = 14 + String.length s
    /\ substring 14 (String.length s) r = s.
Proof.
  intros Hh. rewrite (exec_greet_str w w1 s Hh).
  exists ("Greeter says: " ++ s). split; [reflexivity|]. split.
  - reflexivity.
  - simpl. apply substring_whole.
Qed.

(** X3. [greet] raises nothing of its own but one [TypeError]: an exception
    that leaves [greet] is the one [hello] raised, or the one raised by the
    [__format__] of the object [hello] returned, or the [TypeError] for a
    [__format__] that answered with something that is not an instance of
    [str].  When [hello] returns an exact string or [None], [greet] does not
    raise. *)
Theorem greet_raises_only (w : World) (e : PyExc) :
  outcome (exec greet w) = Raised e ->
  fst (example_hello w) = Raised e
  \/ exists (v : PyVal) (cls : string) (addr : N) (w1 : World),
       example_hello w = (Returned v, w1)
       /\ formatter v = Some (cls, addr)
       /\ (fst (obj_format cls addr w1) = Raised e
           \/ exists r : PyVal,
                fst (obj_format cls addr w1) = Returned r
                /\ str_contents r = None
                /\ e = format_type_error r).
Proof.
  destruct (example_hello w) as [[v|e0] w1] eqn:Hh.
  - destruct (formatter v) as [[cls addr]|] eqn:Hf.
    + rewrite (exec_greet_obj w w1 v cls addr Hh Hf). intros He. right.
      exists v, cls, addr, w1. split; [reflexivity|]. split; [exact Hf|].
      destruct (obj_format cls addr w1) as [[r|e1] w2]; cbn [fst].
      * right. exists r. destruct (str_contents r); cbn in He;
          [discriminate He|]. injection He as <-. repeat split.
      * left. cbn in He. injection He as <-. reflexivity.
    + destruct v as [|s|c a|c a s]; try discriminate Hf.
      * rewrite (exec_greet_none w w1 Hh). discriminate.
      * rewrite (exec_greet_str w w1 s Hh). discriminate.
  - rewrite (exec_greet_raised w w1 e0 Hh). cbn. intros [= <-]. left.
    reflexivity.
Qed.

(** X4. [n] calls of [greet] in a row enter [hello] exactly [n] times and
    give [n] outcomes, whatever [hello] does on each call: return a string,
    return something else, or raise. *)
Theorem greet_times_calls_hello (n : nat) (w : World) :
  hello_calls (snd (greet_times n w)) = n
  /\ List.length (fst (fst (greet_times n w))) = n.
Proof.
  revert w. induction n as [|n IH]; intros w; [split; reflexivity|].
  cbn [greet_times].
  destruct (greet_times n (final (exec greet w))) as [[os w'] t] eqn:E.
  specialize (IH (final (exec greet w))). rewrite E in IH.
  cbn [fst snd] in IH.
  destruct IH as [IHt IHo]. cbn [fst snd]. split.
  - rewrite hello_calls_app, IHt.
    rewrite (hello_calls_greet w). reflexivity.
  - cbn. now rewrite IHo.
Qed.

(** X5. [greet] keeps no state between calls: when [hello] never returns an
    object other than a string or [None], [n] calls of [greet] in a row leave
    the state that [n] direct calls of [hello] leave, and the external calls
    made are those [n] calls of [hello] and no other. *)
Theorem greet_times_transparent (n : nat) (w : World) :
  (forall w' : World, returns_object (fst (example_hello w')) = false) ->
  snd (fst (greet_times n w)) = hello_times n w
  /\ snd (greet_times n w) = List.repeat CallHello n.
Proof.
  intros Hc. revert w. induction n as [|n IH]; intros w; [split; reflexivity|].
  cbn [greet_times hello_times].
  assert (Hw : exec greet w =
               mkRun (outcome (exec greet w)) (snd (example_hello w))
                 (CallHello :: nil)).
  { specialize (Hc w).
    destruct (example_hello w) as [[v|e0] w1] eqn:Hh.
    - destruct v as [|s|cls addr|cls addr s].
      + rewrite (exec_greet_none w w1 Hh). reflexivity.
      + rewrite (exec_greet_str w w1 s Hh). reflexivity.
      + discriminate Hc.
      + discriminate Hc.
    - rewrite (exec_greet_raised w w1 e0 Hh). reflexivity. }
  rewrite Hw. cbn [final trace outcome].
  destruct (greet_times n (snd (example_hello w))) as [[os w'] t] eqn:E.
  specialize (IH (snd (example_hello w))). rewrite E in IH.
  cbn [fst snd] in IH. destruct IH as [IHw IHt]. cbn [fst snd].
  split; [exact IHw | now rewrite IHt].
Qed.

End Greeter.

(** *** Sample runs *)

Example greet_world :
  run Samples.hello_world Samples.no_format greet 0 =
  (Returned "Greeter says: world", 1).
Proof. reflexivity. Qed.

Example greet_int_object :
  exec Samples.hello_int Samples.int_format greet 0 =
  mkRun (Returned "Greeter says: 42") 1
    (CallHello :: CallFormat "int" 1 :: nil).
Proof. reflexivity. Qed.

Example greet_str_subclass_answer :
  exec Samples.hello_obj Samples.format_sub greet 0 =
  mkRun (Returned "Greeter says: sub") 1
    (CallHello :: CallFormat "Greeting" 3 :: nil).
Proof. reflexivity. Qed.

Example greet_none_answer :
  exec Samples.hello_obj Samples.format_none greet 0 =
  mkRun (Raised (mkExc "TypeError"
                   "__format__ must return a str, not NoneType")) 1
    (CallHello :: CallFormat "Greeting" 3 :: nil).
Proof. reflexivity. Qed.

Example greet_boom :
  exec Samples.hello_raises Samples.no_format greet 0 =
  mkRun (Raised Samples.boom) 1 (CallHello :: nil).
Proof. reflexivity. Qed.

Example read_version_thrice :
  fst (read_version 3 (module_exec ∅)) =
  Returned (VStr "0.1.0") :: Returned (VStr "0.1.0")
    :: Returned (VStr "0.1.0") :: nil.
Proof. vm_compute. reflexivity. Qed.

(** *** Across collaborators and states *)

(** C10. The string [greet] returns is a function of the string [hello]
    returned and of nothing else: two calls, in any two states of any two
    interpreters, give the same output as soon as [hello] returns the same
    string [s] in both. *)
Theorem greet_deterministic {W1 W2 : Type}
  (hello1 : W1 -> Outcome PyVal * W1)
  (format1 : string -> N -> W1 -> Outcome PyVal * W1)
  (hello2 : W2 -> Outcome PyVal * W2)
  (format2 : string -> N -> W2 -> Outcome PyVal * W2)
  (w1 : W1) (w2 : W2) (s : string) :
  fst (hello1 w1) = Returned (VStr s) ->
  fst (hello2 w2) = Returned (VStr s) ->
  outcome (exec hello1 format1 greet w1) = outcome (exec hello2 format2 greet w2).
Proof.
  intros H1 H2.
  destruct (hello1 w1) as [o1 w1'] eqn:E1.
  destruct (hello2 w2) as [o2 w2'] eqn:E2.
  cbn in H1, H2. subst o1 o2.
  rewrite (exec_greet_str hello1 format1 w1 w1' s E1).
  rewrite (exec_greet_str hello2 format2 w2 w2' s E2).
  reflexivity.
Qed.

(** *** The version constant *)

Lemma read_version_bound (n : nat) (ns : gmap string PyVal) (v : PyVal) :
  ns !! "__version__" = Some v ->
  read_version n ns = (List.repeat (Returned v) n, ns).
Proof.
  intros Hv. induction n as [|n IH]; cbn; [reflexivity|].
  unfold load_attr. rewrite Hv. rewrite IH. reflexivity.
Qed.

(** C7. The version constant is the string 0.1.0, which is not empty, and
    any number of reads of it, one after the other, all return that string
    and leave the module's namespace as it was. *)
Theorem version_fixed :
  __version__ = "0.1.0"
  /\ __version__ <> ""
  /\ forall (n : nat) (ns : gmap string PyVal),
       read_version n (module_exec ns) =
       (List.repeat (Returned (VStr "0.1.0")) n, module_exec ns).
Proof.
  split; [reflexivity|]. split; [discriminate|].
  intros n ns. apply read_version_bound.
  unfold module_exec. apply lookup_insert_eq.
Qed.

(** *** The theorems at concrete collaborators *)

Lemma greet_returns_prefixed_witness :
  Samples.hello_world 0 = (Returned (VStr "world"), 1)
  /\ run Samples.hello_world Samples.no_format greet 0 =
     (Returned "Greeter says: world", 1).
Proof.
  split; [reflexivity|].
  exact (greet_returns_prefixed Samples.hello_world Samples.no_format
           0 1 "world" eq_refl).
Defined.

Lemma greet_propagates_failure_witness :
  Samples.hello_raises 0 = (Raised Samples.boom, 1)
  /\ run Samples.hello_raises Samples.no_format greet 0 =
     (Raised Samples.boom, 1)
  /\ (forall r : string,
        outcome (exec Samples.hello_raises Samples.no_format greet 0)
        <> Returned r)
  /\ trace (exec Samples.hello_raises Samples.no_format greet 0)
     = CallHello :: nil.
Proof.
  split; [reflexivity|].
  exact (greet_propagates_failure Samples.hello_raises Samples.no_format
           0 1 Samples.boom eq_refl).
Defined.

Lemma greet_formats_non_string_witness :
  Samples.hello_none 0 = (Returned VNone, 1)
  /\ is_str VNone = false
  /\ run Samples.hello_none Samples.no_format greet 0 =
     (Returned "Greeter says: None", 1).
Proof.
  split; [reflexivity|]. split; [reflexivity|].
  exact (greet_formats_non_string Samples.hello_none Samples.no_format
           0 1 VNone eq_refl eq_refl).
Defined.

(** C3, as first stated, fails: [hello] returns [None], which is not a
    string, and [greet] returns a string instead of raising. *)
Lemma greet_none_result_counterexample :
  fst (Samples.hello_none 0) = Returned VNone
  /\ is_str VNone = false
  /\ outcome (exec Samples.hello_none Samples.no_format greet 0) =
     Returned "Greeter says: None"
  /\ forall e : PyExc,
       outcome (exec Samples.hello_none Samples.no_format greet 0) <> Raised e.
Proof.
  repeat split. intros e He. discriminate He.
Qed.



Lemma greet_result_has_prefix_witness :
  outcome (exec Samples.hello_world Samples.no_format greet 0) =
  Returned "Greeter says: world"
  /\ String.prefix "Greeter says: " "Greeter says: world" = true.
Proof.
  split; [reflexivity|].
  exact (greet_result_has_prefix Samples.hello_world Samples.no_format
           0 "Greeter says: world" eq_refl).
Defined.

Lemma greet_of_empty_witness :
  Samples.hello_empty 0 = (Returned (VStr ""), 1)
  /\ run Samples.hello_empty Samples.no_format greet 0 =
     (Returned "Greeter says: ", 1).
Proof.
  split; [reflexivity|].
  exact (greet_of_empty Samples.hello_empty Samples.no_format 0 1 eq_refl).
Defined.

Lemma greet_twice_same_witness :
  Samples.hello_world 0 = (Returned (VStr "world"), 1)
  /\ Samples.hello_world 1 = (Returned (VStr "world"), 2)
  /\ outcome (exec Samples.hello_world Samples.no_format greet
                (final (exec Samples.hello_world Samples.no_format greet 0)))
     = outcome (exec Samples.hello_world Samples.no_format greet 0)
  /\ outcome (exec Samples.hello_world Samples.no_format greet 0)
     = Returned "Greeter says: world".
Proof.
  split; [reflexivity|]. split; [reflexivity|].
  exact (greet_twice_same Samples.hello_world Samples.no_format
           0 1 2 "world" eq_refl eq_refl).
Defined.

Lemma greet_deterministic_witness :
  fst (Samples.hello_world 7) = Returned (VStr "world")
  /\ fst (Samples.hello_world_log ("boot" :: nil)) = Returned (VStr "world")
  /\ outcome (exec Samples.hello_world Samples.no_format greet 7)
     = outcome (exec Samples.hello_world_log Samples.no_format greet
                  ("boot" :: nil)).
Proof.
  split; [reflexivity|]. split; [reflexivity|].
  exact (greet_deterministic Samples.hello_world Samples.no_format
           Samples.hello_world_log Samples.no_format
           7 ("boot" :: nil) "world" eq_refl eq_refl).
Defined.

(** *** Further properties: the greeting tells the strings of [hello] apart *)

(** X2. Two calls of [greet] that give the same result were given the same
    string by [hello]: different strings of [hello] never give the same
    greeting, in whatever states and with whatever collaborators. *)
Theorem greet_injective {W1 W2 : Type}
  (hello1 : W1 -> Outcome PyVal * W1)
  (format1 : string -> N -> W1 -> Outcome PyVal * W1)
  (hello2 : W2 -> Outcome PyVal * W2)
  (format2 : string -> N -> W2 -> Outcome PyVal * W2)
  (w1 : W1) (w2 : W2) (s1 s2 : string) :
  fst (hello1 w1) = Returned (VStr s1) ->
  fst (hello2 w2) = Returned (VStr s2) ->
  outcome (exec hello1 format1 greet w1) = outcome (exec hello2 format2 greet w2) ->
  s1 = s2.
Proof.
  intros H1 H2.
  destruct (hello1 w1) as [o1 w1'] eqn:E1.
  destruct (hello2 w2) as [o2 w2'] eqn:E2.
  cbn in H1, H2. subst o1 o2.
  rewrite (exec_greet_str hello1 format1 w1 w1' s1 E1).
  rewrite (exec_greet_str hello2 format2 w2 w2' s2 E2).
  cbn. intros [= Hs]. exact Hs.
Qed.

(** *** Importing the package *)

(** X6. When the import of line 3 raises, executing the module raises the
    same exception in the state the import left, and no statement after
    line 3 has run: apart from [__doc__], every name of the namespace is as
    it was, so that in a namespace without [__version__] a read of the
    version raises [AttributeError]. *)
Theorem module_body_import_fails {World : Type}
  (import_hello : World -> Outcome PyVal * World) (greet_fn : PyVal)
  (ns : gmap string PyVal) (w w1 : World) (e : PyExc) :
  import_hello w = (Raised e, w1) ->
  fst (fst (module_body import_hello greet_fn ns w)) = Raised e
  /\ snd (module_body import_hello greet_fn ns w) = w1
  /\ (forall name : string,
        name <> "__doc__" ->
        snd (fst (module_body import_hello greet_fn ns w)) !! name = ns !! name)
  /\ (ns !! "__version__" = None ->
      fst (load_attr "__version__"
             (snd (fst (module_body import_hello greet_fn ns w)))) =
      Raised (mkExc "AttributeError"
                "module 'greeter' has no attribute '__version__'")).
Proof.
  intros Hi. unfold module_body. rewrite Hi. cbn [fst snd].
  split; [reflexivity|]. split; [reflexivity|]. split.
  - intros name Hn. apply lookup_insert_ne. congruence.
  - intros Hv. unfold load_attr.
    rewrite lookup_insert_ne by discriminate. rewrite Hv. reflexivity.
Qed.

(** X7. When the import of line 3 returns the object [f], executing the
    module succeeds in the state the import left and binds four names:
    [__doc__] to the docstring, [example_hello] to [f], [__version__] to
    0.1.0 and [greet] to the new function; every other name of the namespace
    is as it was, and any number of reads of the version then return 0.1.0
    (no later statement rebinds it). *)
Theorem module_body_import_succeeds {World : Type}
  (import_hello : World -> Outcome PyVal * World) (greet_fn f : PyVal)
  (ns : gmap string PyVal) (w w1 : World) :
  import_hello w = (Returned f, w1) ->
  let ns' := snd (fst (module_body import_hello greet_fn ns w)) in
  fst (fst (module_body import_hello greet_fn ns w)) = Returned tt
  /\ snd (module_body import_hello greet_fn ns w) = w1
  /\ ns' !! "__doc__" = Some (VStr module_doc)
  /\ ns' !! "example_hello" = Some f
  /\ ns' !! "__version__" = Some (VStr "0.1.0")
  /\ ns' !! "greet" = Some greet_fn
  /\ (forall name : string,
        name <> "__doc__" -> name <> "example_hello" ->
        name <> "__version__" -> name <> "greet" ->
        ns' !! name = ns !! name)
  /\ forall n : nat,
       read_version n ns' = (List.repeat (Returned (VStr "0.1.0")) n, ns').
Proof.
  intros Hi ns'. subst ns'. unfold module_body. rewrite Hi. cbn [fst snd].
  unfold module_exec.
  assert (Hv : (<["greet" := greet_fn]>
                  (<["__version__" := VStr __version__]>
                     (<["example_hello" := f]>
                        (<["__doc__" := VStr module_doc]> ns))))
               !! "__version__" = Some (VStr "0.1.0")).
  { rewrite lookup_insert_ne by discriminate. apply lookup_insert_eq. }
  split; [reflexivity|]. split; [reflexivity|]. split.
  { rewrite !lookup_insert_ne by discriminate. apply lookup_insert_eq. }
  split.
  { rewrite !lookup_insert_ne by discriminate. apply lookup_insert_eq. }
  split; [exact Hv|]. split; [apply lookup_insert_eq|]. split.
  - intros name H1 H2 H3 H4. rewrite !lookup_insert_ne by congruence.
    reflexivity.
  - intros n. apply read_version_bound. exact Hv.
Qed.

(** *** The further theorems at concrete collaborators *)

Lemma greet_result_recovers_witness :
  Samples.hello_world 0 = (Returned (VStr "world"), 1)
  /\ exists r : string,
       outcome (exec Samples.hello_world Samples.no_format greet 0) = Returned r
       /\ String.length r = 14 + String.length "world"
       /\ substring 14 (String.length "world") r = "world".
Proof.
  split; [reflexivity|].
  exact (greet_result_recovers Samples.hello_world Samples.no_format
           0 1 "world" eq_refl).
Defined.

Lemma greet_injective_witness :
  fst (Samples.hello_world 0) = Returned (VStr "world")
  /\ fst (Samples.hello_world_log nil) = Returned (VStr "world")
  /\ outcome (exec Samples.hello_world Samples.no_format greet 0)
     = outcome (exec Samples.hello_world_log Samples.no_format greet nil)
  /\ "world" = "world".
Proof.
  split; [reflexivity|]. split; [reflexivity|]. split; [reflexivity|].
  exact (greet_injective Samples.hello_world Samples.no_format
           Samples.hello_world_log Samples.no_format
           0 nil "world" "world" eq_refl eq_refl eq_refl).
Defined.

Lemma greet_raises_only_witness :
  outcome (exec Samples.hello_int Samples.format_none greet 0)
  = Raised (format_type_error VNone)
  /\ (fst (Samples.hello_int 0) = Raised (format_type_error VNone)
      \/ exists (v : PyVal) (cls : string) (addr : N) (w1 : nat),
           Samples.hello_int 0 = (Returned v, w1)
           /\ formatter v = Some (cls, addr)
           /\ (fst (Samples.format_none cls addr w1)
               = Raised (format_type_error VNone)
               \/ exists r : PyVal,
                    fst (Samples.format_none cls addr w1) = Returned r
                    /\ str_contents r = None
                    /\ format_type_error VNone = format_type_error r)).
Proof.
  split; [reflexivity|].
  exact (greet_raises_only Samples.hello_int Samples.format_none
           0 (format_type_error VNone) eq_refl).
Defined.

Lemma greet_times_transparent_witness :
  (forall w' : nat, returns_object (fst (Samples.hello_world w')) = false)
  /\ snd (fst (greet_times Samples.hello_world Samples.no_format 3 0))
     = hello_times Samples.hello_world 3 0
  /\ snd (greet_times Samples.hello_world Samples.no_format 3 0)
     = List.repeat CallHello 3.
Proof.
  split; [intros w'; reflexivity|].
  exact (greet_times_transparent Samples.hello_world Samples.no_format
           3 0 (fun w' => eq_refl)).
Defined.

Lemma module_body_import_fails_witness :
  Samples.import_missing 0 =
  (Raised (mkExc "ModuleNotFoundError" "No module named 'example'"), 0)
  /\ fst (fst (module_body Samples.import_missing (VObj "function" 9) ∅ 0))
     = Raised (mkExc "ModuleNotFoundError" "No module named 'example'")
  /\ fst (load_attr "__version__"
            (snd (fst (module_body Samples.import_missing
                         (VObj "function" 9) ∅ 0))))
     = Raised (mkExc "AttributeError"
                 "module 'greeter' has no attribute '__version__'").
Proof.
  split; [reflexivity|].
  pose proof (module_body_import_fails Samples.import_missing
                (VObj "function" 9) ∅ 0 0 _ eq_refl) as (Ho & _ & _ & Hv).
  split; [exact Ho | exact (Hv eq_refl)].
Defined.

Lemma module_body_import_succeeds_witness :
  Samples.import_ok 0 = (Returned (VObj "function" 7), 1)
  /\ fst (fst (module_body Samples.import_ok (VObj "function" 9) ∅ 0))
     = Returned tt
  /\ snd (fst (module_body Samples.import_ok (VObj "function" 9) ∅ 0))
       !! "__version__" = Some (VStr "0.1.0").
Proof.
  split; [reflexivity|].
  pose proof (module_body_import_succeeds Samples.import_ok
                (VObj "function" 9) (VObj "function" 7) ∅ 0 1 eq_refl)
    as (Ho & _ & _ & _ & Hv & _).
  split; [exact Ho | exact Hv].
Defined.
